(** * k8s-apply: a shallow embedding of [k8s-apply.js]

    The module exports one class, [K8sApi], with a raw [request], four HTTP
    wrappers ([get], [post], [put], [del]) and two operations on Kubernetes
    objects ([applyObject], [delObject]).

    Conventions of the embedding.
    - JavaScript strings are [string]s read as UTF-8 byte sequences, so
      [Buffer.byteLength] is [String.length]; [toLowerCase] is the ASCII one.
    - Numbers are integers ([Z]).
    - A plain JavaScript object is a [gmap string value]; [key in target] is
      a lookup that succeeds, [target[key] = v] is an insert.
    - Every method is [async]: what it returns is a promise, modelled by the
      way the promise ends ([settled]).  State (the requests handed to
      [https.request], the replies still to come, and the objects a caller
      passed by reference) is threaded explicitly. *)

From stdpp Require Import base gmap strings list fin_maps option.
From Stdlib Require Import ZArith Ascii String.

Set Warnings "-register-all".
Local Open Scope string_scope.
Local Open Scope list_scope.
Local Open Scope Z_scope.

(** ** JavaScript values *)

(** The values that occur in option objects, in resource objects and in
    parsed JSON bodies.  An array is an object too, so it carries, next to
    its elements, the properties stored under non-index keys. *)
Inductive value : Type :=
  | VUndef
  | VNull
  | VBool (b : bool)
  | VNum (n : Z)
  | VStr (s : string)
  | VArr (elems : list value) (props : gmap string value)
  | VObj (props : gmap string value).

(** [if( v )]: the falsy values are [undefined], [null], [false], [0] and
    the empty string. *)
Definition truthy (v : value) : bool :=
  match v with
  | VUndef | VNull => false
  | VBool b => b
  | VNum n => negb (Z.eqb n 0)
  | VStr s => negb (String.eqb s "")
  | VArr _ _ | VObj _ => true
  end.

(** [v.k] for a key [k] that no built-in prototype defines: a [TypeError]
    ([None]) on [undefined] and [null], the stored value on an object that
    has the key, [undefined] otherwise. *)
Definition prop (v : value) (k : string) : option value :=
  match v with
  | VUndef | VNull => None
  | VObj m | VArr _ m => Some (default VUndef (m !! k))
  | VBool _ | VNum _ | VStr _ => Some VUndef
  end.

(** ** [defaults( target, defaults )] *)

(** One turn of the [forEach] callback:
    [if( !(key in target) ) target[ key ] = defaults[ key ];] *)
Definition default_key (target : gmap string value) (kv : string * value)
  : gmap string value :=
  match target !! kv.1 with
  | Some _ => target
  | None => <[kv.1 := kv.2]> target
  end.

(** The keys of the [defaults] literal are visited in the order they are
    written; the target is updated in place and returned. *)
Definition defaults (target : gmap string value)
  (defs : list (string * value)) : gmap string value :=
  foldl default_key target defs.

(** [defaults] called on a value that need not be an object (the caller's
    [options.headers]): the [in] operator throws a [TypeError] ([None]) on
    anything that is not an object. *)
Definition defaults_value (target : value) (defs : list (string * value))
  : option value :=
  match defs with
  | [] => Some target
  | _ =>
    match target with
    | VObj m => Some (VObj (defaults m defs))
    | VArr l m => Some (VArr l (defaults m defs))
    | _ => None
    end
  end.

(** ** Promises and the network *)

(** What a rejected promise carries or what a listener throws. *)
Inductive exn : Type :=
  | NetError (msg : string)
      (** the ["error"] event of the request: DNS, connect, TLS *)
  | TypeError
  | SyntaxError
      (** thrown by [JSON.parse] *)
  | CannotGetObject (statusCode : Z) (getObject : value)
      (** [new Error( "k8s-apply cannot get object: " + statusCode + "\n"
          + JSON.stringify( getObject, null, 4 ) )] *).

(** The result object [{ statusCode, data }] a request is fulfilled with. *)
Record result : Type := Result { statusCode : Z; data : value }.

(** How the promise returned by an [async] method ends.
    - [Fulfilled r]: [fulfill( r )] was called, or the function returned [r].
    - [Rejected e]: [reject( e )] was called, or [e] was thrown inside the
      [async] function, the promise executor or a [then] callback.
    - [Uncaught e]: [e] was thrown inside an event listener, outside of the
      executor and of every [then] callback.  Neither [fulfill] nor [reject]
      is ever called: the promise stays pending and [e] reaches the event
      loop as an uncaught exception.
    - [NoReply]: no event ever arrives; the promise stays pending.
    A [then] or [await] on a promise that stays pending never runs. *)
Inductive settled : Type :=
  | Fulfilled (r : result)
  | Rejected (e : exn)
  | Uncaught (e : exn)
  | NoReply.

(** What the network does with one request: it emits ["error"] on the
    request, or it answers with a status code and a body.  [parsed] is the
    value of [JSON.parse( data )] on the collected chunks, [None] when
    [JSON.parse] throws. *)
Inductive net_reply : Type :=
  | ConnError (msg : string)
  | Response (status : Z) (parsed : option value).

(** One call of [https.request( options, ... )]: the options object it was
    given and the body passed to [req.write], if any. *)
Record sent : Type := Sent { sent_options : gmap string value;
                             sent_body : option string }.

(** The state threaded through the methods: the requests issued so far,
    oldest first, and the replies the network will give to the next ones. *)
Record world : Type := World { issued : list sent; replies : list net_reply }.

Definition sent_method (s : sent) : option value := sent_options s !! "method".
Definition sent_path (s : sent) : option value := sent_options s !! "path".
Definition sent_headers (s : sent) : option value := sent_options s !! "headers".
Definition sent_postData (s : sent) : option value := sent_options s !! "postData".

(** The listeners of [request]:
    [res.on("end", () => fulfill( { statusCode: res.statusCode, data: JSON.parse( data ) } ) )]
    and [req.on( "error", reject )]. *)
Definition on_reply (r : net_reply) : settled :=
  match r with
  | ConnError msg => Rejected (NetError msg)
  | Response sc (Some d) => Fulfilled (Result sc d)
  | Response sc None => Uncaught SyntaxError
  end.

(** The request goes out with the body written to it, and the next reply of
    the network decides how the promise ends. *)
Definition deliver (s : sent) (w : world) : settled * world :=
  let log := issued w ++ [s] in
  match replies w with
  | [] => (NoReply, World log [])
  | r :: rs => (on_reply r, World log rs)
  end.

(** The promise executor of [request]:
    [const req = https.request(options, ...); req.on( "error", reject );
     if( options.postData ) req.write( options.postData ); req.end();]
    [req.write] accepts a string and throws a [TypeError] on the other
    values of [value]; thrown inside the executor, it rejects the promise
    and [req.end] is not reached, so no reply is consumed. *)
Definition https_request (options : gmap string value) (w : world)
  : settled * world :=
  let postData := default VUndef (options !! "postData") in
  if truthy postData then
    match postData with
    | VStr body => deliver (Sent options (Some body)) w
    | _ => (Rejected TypeError,
            World (issued w ++ [Sent options None]) (replies w))
    end
  else deliver (Sent options None) w.

(** ** Resource objects *)

(** [object.metadata] with the three fields the code reads or writes; a
    field that may be missing is an [option]. *)
Record ObjectMeta : Type := Meta {
  namespace : string;
  name : option string;
  resourceVersion : option value;
  meta_rest : gmap string value
}.

(** A Kubernetes object as [applyObject] and [delObject] receive it, with
    the fields the code reads and all its other fields in [rest]. *)
Record resource : Type := Resource {
  apiVersion : string;
  kind : string;
  metadata : ObjectMeta;
  rest : gmap string value
}.

(** [object.metadata.resourceVersion = rv;] *)
Definition set_resourceVersion (rv : value) (object : resource) : resource :=
  let m := metadata object in
  Resource (apiVersion object) (kind object)
    (Meta (namespace m) (name m) (Some rv) (meta_rest m)) (rest object).

(** ** String built-ins *)

(** [s.indexOf( c )] for a one-character [c]: the first index, or [-1]. *)
Fixpoint indexOf (c : ascii) (s : string) : Z :=
  match s with
  | EmptyString => -1
  | String a s' =>
    if Ascii.eqb a c then 0
    else let i := indexOf c s' in if Z.ltb i 0 then -1 else i + 1
  end.

Definition lower_ascii (a : ascii) : ascii :=
  let n := nat_of_ascii a in
  if ((65 <=? n) && (n <=? 90))%nat then ascii_of_nat (n + 32) else a.

(** [s.toLowerCase()] on ASCII letters. *)
Fixpoint toLowerCase (s : string) : string :=
  match s with
  | EmptyString => EmptyString
  | String a s' => String (lower_ascii a) (toLowerCase s')
  end.

(** [`${v}`] for a property that holds a string or is missing. *)
Definition template (v : option string) : string := default "undefined" v.

(** The value an options object passes back to a caller: the caller sees
    the object it supplied, and nothing of an object created by [|| {}]. *)
Definition caller_view (options : option (gmap string value))
  (o : gmap string value) : option (gmap string value) :=
  match options with Some _ => Some o | None => None end.

(** [s.includes( c )] and [s.startsWith( c )] for a one-character [c]. *)
Fixpoint includes (c : ascii) (s : string) : bool :=
  match s with
  | EmptyString => false
  | String a s' => Ascii.eqb a c || includes c s'
  end.

Definition startsWith (c : ascii) (s : string) : bool :=
  match s with
  | EmptyString => false
  | String a _ => Ascii.eqb a c
  end.

(** The plural path as the specification words it: the root is [/apis/]
    when [apiVersion] contains a slash and [/api/] when it contains none. *)
Definition spec_pluralPath (object : resource) : string :=
  (if includes "/" (apiVersion object) then "/apis/" else "/api/")
  +:+ apiVersion object
  +:+ "/namespaces/" +:+ namespace (metadata object)
  +:+ "/" +:+ toLowerCase (kind object) +:+ "s".

(** The first value listed for [k] in a [defaults] literal. *)
Fixpoint first_binding (k : string) (defs : list (string * value))
  : option value :=
  match defs with
  | [] => None
  | kv :: defs' => if decide (kv.1 = k) then Some kv.2 else first_binding k defs'
  end.

(** The same request under another method. *)
Definition set_method (m : string) (s : sent) : sent :=
  Sent (<["method" := VStr m]> (sent_options s)) (sent_body s).

(** Every field but [metadata.resourceVersion] is the same. *)
Definition same_but_resourceVersion (o o' : resource) : Prop :=
  apiVersion o' = apiVersion o ∧ kind o' = kind o ∧ rest o' = rest o
  ∧ namespace (metadata o') = namespace (metadata o)
  ∧ name (metadata o') = name (metadata o)
  ∧ meta_rest (metadata o') = meta_rest (metadata o).

(** The two operations on objects. *)
Inductive op : Type := OpApply | OpDelete.

Section K8sApi.

(** [token], read from the service account directory when the module is
    loaded, [process.env.KUBERNETES_SERVICE_HOST], and [JSON.stringify]. *)
Variable token : string.
Variable KUBERNETES_SERVICE_HOST : value.
Variable JSON_stringify : resource -> string.

Definition request_defaults (path : string) : list (string * value) :=
  [ ("hostname", KUBERNETES_SERVICE_HOST);
    ("port", VNum 443);
    ("path", VStr path);
    ("method", VStr "GET");
    ("headers", VObj ∅) ].

Definition header_defaults : list (string * value) :=
  [ ("Authorization", VStr ("Bearer " +:+ token)) ].

(** [async request( path, options )].  Returns how the promise ends, the
    caller's options object as the call leaves it, and the new state.
    [console.log] is left out. *)
Definition request (path : string) (options : option (gmap string value))
  (w : world) : settled * option (gmap string value) * world :=
  let o := defaults (default ∅ options) (request_defaults path) in
  match defaults_value (default VUndef (o !! "headers")) header_defaults with
  | None => (Rejected TypeError, caller_view options o, w)
  | Some h =>
    let o' := <["headers" := h]> o in
    let '(r, w') := https_request o' w in
    (r, caller_view options o', w')
  end.

(** [async get( path, options )] *)
Definition get (path : string) (options : option (gmap string value))
  (w : world) : settled * option (gmap string value) * world :=
  let o := defaults (default ∅ options) [ ("method", VStr "GET") ] in
  let '(r, o', w') := request path (Some o) w in
  (r, caller_view options (default o o'), w').

Definition post_defaults (body : string) : list (string * value) :=
  [ ("method", VStr "POST");
    ("headers", VObj {[ "Content-Type" := VStr "application/json";
                        "Content-Length" := VNum (Z.of_nat (String.length body)) ]});
    ("postData", VStr body) ].

(** [async post( path, object, options )] *)
Definition post (path : string) (object : resource)
  (options : option (gmap string value)) (w : world)
  : settled * option (gmap string value) * world :=
  let body := JSON_stringify object in
  let o := defaults (default ∅ options) (post_defaults body) in
  let '(r, o', w') := request path (Some o) w in
  (r, caller_view options (default o o'), w').

(** [async put( path, object, options )]: [options] is not used. *)
Definition put (path : string) (object : resource)
  (options : option (gmap string value)) (w : world)
  : settled * option (gmap string value) * world :=
  let '(r, _, w') := post path object (Some {[ "method" := VStr "PUT" ]}) w in
  (r, options, w').

(** [async del( path, options )]: [options] is not used. *)
Definition del (path : string) (options : option (gmap string value))
  (w : world) : settled * option (gmap string value) * world :=
  let '(r, _, w') := request path (Some {[ "method" := VStr "DELETE" ]}) w in
  (r, options, w').

(** [getPluralPath( object )] *)
Definition getPluralPath (object : resource) : string :=
  "/api" +:+ (if Z.ltb 0 (indexOf "/" (apiVersion object)) then "s" else "")
  +:+ "/" +:+ apiVersion object
  +:+ "/namespaces/" +:+ namespace (metadata object)
  +:+ "/" +:+ toLowerCase (kind object) +:+ "s".

(** [getObject.metadata.resourceVersion]; [None] is the [TypeError]. *)
Definition fetched_resourceVersion (getObject : value) : option value :=
  m ← prop getObject "metadata"; prop m "resourceVersion".

(** The inner [then] callback of [applyObject], run on the result of
    [this.get( path )]. *)
Definition on_get (path : string) (object : resource) (res : result)
  (w : world) : settled * resource * world :=
  if negb (Z.eqb (statusCode res) 200) then
    (Rejected (CannotGetObject (statusCode res) (data res)), object, w)
  else
    match fetched_resourceVersion (data res) with
    | None => (Rejected TypeError, object, w)
    | Some rv =>
      let object' := set_resourceVersion rv object in
      let '(r, _, w') := put path object' None w in
      (r, object', w')
    end.

(** The outer [then] callback of [applyObject], run on the result of
    [this.post( path, object )]. *)
Definition on_post (path : string) (object : resource) (res : result)
  (w : world) : settled * resource * world :=
  if negb (Z.eqb (statusCode res) 409) then (Fulfilled res, object, w)
  else
    let path' := path +:+ "/" +:+ template (name (metadata object)) in
    let '(g, _, w') := get path' None w in
    match g with
    | Fulfilled res' => on_get path' object res' w'
    | other => (other, object, w')
    end.

(** [async applyObject( object )].  Returns how the promise ends, the
    caller's object as the call leaves it, and the new state.  A promise
    that is rejected or stays pending skips the [then] callbacks. *)
Definition applyObject (object : resource) (w : world)
  : settled * resource * world :=
  let path := getPluralPath object in
  let '(p, _, w') := post path object None w in
  match p with
  | Fulfilled res => on_post path object res w'
  | other => (other, object, w')
  end.

(** [async delObject( object )] *)
Definition delObject (object : resource) (w : world)
  : settled * resource * world :=
  let path := getPluralPath object +:+ "/" +:+ template (name (metadata object)) in
  let '(r, _, w') := del path None w in
  (r, object, w').

(** *** The requests the wrappers hand to [https.request] *)

(** The options of a request without a body, made from no caller
    options: [this.get( path )] and [this.del( path )]. *)
Definition plain_options (method path : string) : gmap string value :=
  {[ "method" := VStr method;
     "hostname" := KUBERNETES_SERVICE_HOST;
     "port" := VNum 443;
     "path" := VStr path;
     "headers" := VObj {[ "Authorization" := VStr ("Bearer " +:+ token) ]} ]}.

(** The options of a request with a JSON body, made from no caller
    options: [this.post( path, object )] and [this.put( path, object )]. *)
Definition body_options (method path body : string) : gmap string value :=
  {[ "method" := VStr method;
     "headers" := VObj {[ "Content-Type" := VStr "application/json";
                          "Content-Length" := VNum (Z.of_nat (String.length body));
                          "Authorization" := VStr ("Bearer " +:+ token) ]};
     "postData" := VStr body;
     "hostname" := KUBERNETES_SERVICE_HOST;
     "port" := VNum 443;
     "path" := VStr path ]}.

Definition plain_sent (method path : string) : sent :=
  Sent (plain_options method path) None.

(** An empty string is falsy, so [req.write] is skipped for it. *)
Definition body_sent (method path body : string) : sent :=
  Sent (body_options method path body)
       (if String.eqb body "" then None else Some body).

(** [path + `/${object.metadata.name}`] *)
Definition object_path (object : resource) : string :=
  getPluralPath object +:+ "/" +:+ template (name (metadata object)).

(** One operation on the caller's object. *)
Definition run_op (o : op) (object : resource) (w : world)
  : settled * resource * world :=
  match o with
  | OpApply => applyObject object w
  | OpDelete => delObject object w
  end.

(** A caller that runs operations one after the other on the same object,
    each one [await]ed inside [try]/[catch]: a rejection is caught and the
    next operation runs; after a promise that stays pending nothing runs. *)
Fixpoint run_ops (ops : list op) (object : resource) (w : world)
  : resource * world :=
  match ops with
  | [] => (object, w)
  | o :: ops' =>
    let '(r, object', w') := run_op o object w in
    match r with
    | Fulfilled _ | Rejected _ => run_ops ops' object' w'
    | Uncaught _ | NoReply => (object', w')
    end
  end.

(** What a call has done to the caller's options object [o], given the
    [defaults] literals [defs] it went through: every key but [headers]
    keeps its value or receives the first default listed for it, and the
    headers object (the caller's, or the default one) has [Authorization]
    added when it lacked it and is otherwise as it was.  The object is
    what it was exactly when it had all the keys of [defs] and its headers
    had [Authorization]. *)
Definition options_after (defs : list (string * value))
  (o : gmap string value) (after : option (gmap string value)) : Prop :=
  ∃ o' : gmap string value, after = Some o'
  ∧ (∀ k, k ≠ "headers" ->
       o' !! k = match o !! k with
                 | Some v => Some v
                 | None => first_binding k defs
                 end)
  ∧ (∃ h h' : gmap string value,
       match o !! "headers" with
       | Some v => Some v
       | None => first_binding "headers" defs
       end = Some (VObj h)
       ∧ o' !! "headers" = Some (VObj h')
       ∧ h' !! "Authorization"
         = Some (default (VStr ("Bearer " +:+ token)) (h !! "Authorization"))
       ∧ ∀ k, k ≠ "Authorization" -> h' !! k = h !! k)
  ∧ (o' = o ↔
       (∀ k, is_Some (first_binding k defs) -> is_Some (o !! k))
       ∧ ∃ h : gmap string value,
           o !! "headers" = Some (VObj h) ∧ is_Some (h !! "Authorization")).

End K8sApi.

(** ** The constructor *)

(** A secure context as far as the constructor is concerned: the options it
    was created from and the certificates given to [context.addCACert],
    oldest first. *)
Record secure_context : Type := SecureContext {
  created_from : gmap string value;
  added_cas : list string
}.

(** [new K8sApi()] replaces [tls.createSecureContext] by a function that
    calls the one found there and adds [certificate] to its context:
    [tls.createSecureContext = options => {
       const context = origCreateSecureContext( options );
       context.context.addCACert( certificate );
       return context; };]
    The function takes the value of [tls.createSecureContext] before the
    call and returns its value after the call. *)
Definition constructor (certificate : string)
  (origCreateSecureContext : gmap string value -> secure_context)
  : gmap string value -> secure_context :=
  λ options,
    let context := origCreateSecureContext options in
    SecureContext (created_from context) (added_cas context ++ [certificate]).

(** What [req.write] receives for the options handed to [https.request]:
    the value of [postData] when it is a non-empty string. *)
Definition written_body (o : gmap string value) : option string :=
  match o !! "postData" with
  | Some (VStr b) => if String.eqb b "" then None else Some b
  | _ => None
  end.

(** ** A sample cluster

    The service of the documentation, a token, a host and a serializer for
    objects of its shape, on which the statements below are run. *)

Definition sample_token : string := "eyJhbGciOi".
Definition sample_host : value := VStr "10.96.0.1".

Definition sample_service : resource :=
  Resource "v1" "Service" (Meta "ns1" (Some "svc-a") None ∅) ∅.

Definition quoted (s : string) : string :=
  String (ascii_of_nat 34) (s +:+ String (ascii_of_nat 34) "").

Definition member (k v : string) : string := quoted k +:+ ":" +:+ quoted v.

(** [JSON.stringify] on objects without other fields, whose strings need
    no escape and whose [resourceVersion], when set, is a string. *)
Definition sample_stringify (object : resource) : string :=
  let m := metadata object in
  "{" +:+ member "apiVersion" (apiVersion object)
  +:+ "," +:+ member "kind" (kind object)
  +:+ "," +:+ quoted "metadata" +:+ ":{"
  +:+ member "namespace" (namespace m)
  +:+ match name m with Some n => "," +:+ member "name" n | None => "" end
  +:+ match resourceVersion m with
      | Some (VStr rv) => "," +:+ member "resourceVersion" rv
      | _ => ""
      end
  +:+ "}}".

(** The body of a read: [{ metadata: { resourceVersion: "42" } }]. *)
Definition sample_fetched : value :=
  VObj {[ "metadata" := VObj {[ "resourceVersion" := VStr "42" ]} ]}.

(** The body of a failed read, a [Status] object. *)
Definition sample_status : value :=
  VObj {[ "kind" := VStr "Status"; "code" := VNum 403 ]}.

(** An options object that has every key [request] and [post] look for. *)
Definition sample_complete_options : gmap string value :=
  {[ "hostname" := VStr "localhost";
     "port" := VNum 6443;
     "path" := VStr "/version";
     "method" := VStr "GET";
     "headers" := VObj {[ "Authorization" := VStr "Bearer other" ]};
     "postData" := VStr "" ]}.

(** ** Transport lemmas *)

Lemma deliver_cons s w r rs :
  replies w = r :: rs ->
  deliver s w = (on_reply r, World (issued w ++ [s]) rs).
Proof. intros H. unfold deliver. by rewrite H. Qed.

Lemma https_request_body (o : gmap string value) body w :
  o !! "postData" = Some (VStr body) ->
  https_request o w
  = deliver (Sent o (if String.eqb body "" then None else Some body)) w.
Proof.
  intros H. unfold https_request. rewrite H. simpl.
  by destruct (String.eqb body "").
Qed.

Lemma https_request_plain (o : gmap string value) w :
  o !! "postData" = None ->
  https_request o w = deliver (Sent o None) w.
Proof. intros H. unfold https_request. by rewrite H. Qed.

Section Wrappers.

Variable token : string.
Variable host : value.
Variable ser : resource -> string.

Lemma post_fresh path obj w :
  post token host ser path obj None w =
  let '(r, w') := deliver (body_sent token host "POST" path (ser obj)) w in
  (r, None, w').
Proof.
  unfold post, request, body_sent.
  vm_compute (defaults_value _ _). cbv iota beta zeta.
  rewrite (https_request_body _ (ser obj)) by (vm_compute; reflexivity).
  vm_compute (insert _ _ _). vm_compute (body_options _ _ _ _ _).
  by destruct (deliver _ w).
Qed.

Lemma put_any path obj opts w :
  put token host ser path obj opts w =
  let '(r, w') := deliver (body_sent token host "PUT" path (ser obj)) w in
  (r, opts, w').
Proof.
  unfold put, post, request, body_sent.
  vm_compute (defaults_value _ _). cbv iota beta zeta.
  rewrite (https_request_body _ (ser obj)) by (vm_compute; reflexivity).
  vm_compute (insert _ _ _). vm_compute (body_options _ _ _ _ _).
  by destruct (deliver _ w).
Qed.

Lemma get_fresh path w :
  get token host path None w =
  let '(r, w') := deliver (plain_sent token host "GET" path) w in
  (r, None, w').
Proof.
  unfold get, request, plain_sent.
  vm_compute (defaults_value _ _). cbv iota beta zeta.
  rewrite https_request_plain by (vm_compute; reflexivity).
  vm_compute (insert _ _ _). vm_compute (plain_options _ _ _ _).
  by destruct (deliver _ w).
Qed.

Lemma del_any path opts w :
  del token host path opts w =
  let '(r, w') := deliver (plain_sent token host "DELETE" path) w in
  (r, opts, w').
Proof.
  unfold del, request, plain_sent.
  vm_compute (defaults_value _ _). cbv iota beta zeta.
  rewrite https_request_plain by (vm_compute; reflexivity).
  vm_compute (insert _ _ _). vm_compute (plain_options _ _ _ _).
  by destruct (deliver _ w).
Qed.

End Wrappers.

(** ** The apply protocol *)

Section Reconciler.

Variable token : string.
Variable host : value.
Variable ser : resource -> string.

Abbreviation applyObject := (applyObject token host ser).
Abbreviation body_sent := (body_sent token host).
Abbreviation plain_sent := (plain_sent token host).

(** The run up to the result of the create request. *)
Lemma applyObject_created obj w sc d rs :
  replies w = Response sc (Some d) :: rs ->
  applyObject obj w
  = on_post token host ser (getPluralPath obj) obj (Result sc d)
      (World (issued w ++ [body_sent "POST" (getPluralPath obj) (ser obj)]) rs).
Proof.
  intros Hw. unfold applyObject. rewrite post_fresh.
  by rewrite (deliver_cons _ _ _ _ Hw).
Qed.

(** The run up to the result of the read that follows a conflict. *)
Lemma applyObject_conflict_read obj w d1 sc d2 rs :
  replies w = Response 409 (Some d1) :: Response sc (Some d2) :: rs ->
  applyObject obj w
  = on_get token host ser (object_path obj) obj (Result sc d2)
      (World (issued w ++ [body_sent "POST" (getPluralPath obj) (ser obj);
                           plain_sent "GET" (object_path obj)]) rs).
Proof.
  intros Hw. rewrite (applyObject_created _ _ _ _ _ Hw).
  unfold on_post. simpl. fold (object_path obj). rewrite get_fresh.
  rewrite (deliver_cons _ _ (Response sc (Some d2)) rs) by done.
  simpl. by rewrite <- app_assoc.
Qed.

(** The read failed: the inner callback throws before it writes to the
    object and before it calls [put]. *)
Lemma applyObject_conflict_read_failed obj w d1 sc d2 rs :
  replies w = Response 409 (Some d1) :: Response sc (Some d2) :: rs ->
  sc ≠ 200 ->
  applyObject obj w
  = (Rejected (CannotGetObject sc d2), obj,
     World (issued w ++ [body_sent "POST" (getPluralPath obj) (ser obj);
                         plain_sent "GET" (object_path obj)]) rs).
Proof.
  intros Hw Hsc. rewrite (applyObject_conflict_read _ _ _ _ _ _ Hw).
  unfold on_get. simpl.
  by rewrite (proj2 (Z.eqb_neq sc 200) Hsc).
Qed.

(** C4. When the create request is answered with a status other than
    409, [applyObject] is fulfilled with that very result, the object is
    as it was, and the only request issued is the POST of the serialized
    object to the plural path: no GET and no PUT follow. *)
Theorem applyObject_no_conflict obj w sc d rs :
  replies w = Response sc (Some d) :: rs ->
  sc ≠ 409 ->
  applyObject obj w
  = (Fulfilled (Result sc d), obj,
     World (issued w ++ [body_sent "POST" (getPluralPath obj) (ser obj)]) rs).
Proof.
  intros Hw Hsc. rewrite (applyObject_created _ _ _ _ _ Hw).
  unfold on_post. simpl.
  by rewrite (proj2 (Z.eqb_neq sc 409) Hsc).
Qed.

(** C1. When the create request is answered with 409 and the read with a
    status other than 200, no PUT is issued (the POST and the GET are the
    only requests), but the promise of [applyObject] is rejected with the
    error built from the read's status and body: it is not fulfilled with
    the read's result [{statusCode, data}]. *)
Theorem applyObject_read_failure_is_thrown obj w d1 sc d2 rs :
  replies w = Response 409 (Some d1) :: Response sc (Some d2) :: rs ->
  sc ≠ 200 ->
  (applyObject obj w).1.1 = Rejected (CannotGetObject sc d2)
  ∧ (applyObject obj w).1.1 ≠ Fulfilled (Result sc d2)
  ∧ issued (applyObject obj w).2
    = issued w ++ [body_sent "POST" (getPluralPath obj) (ser obj);
                   plain_sent "GET" (object_path obj)].
Proof.
  intros Hw Hsc.
  rewrite (applyObject_conflict_read_failed _ _ _ _ _ _ Hw Hsc).
  by repeat split.
Qed.

(** C5. When [applyObject] stops because the read that follows a 409
    was answered with a status other than 200, the caller's object is
    exactly what it was before the call: [metadata.resourceVersion] has
    not been written. *)
Theorem applyObject_read_failure_keeps_object obj w d1 sc d2 rs :
  replies w = Response 409 (Some d1) :: Response sc (Some d2) :: rs ->
  sc ≠ 200 ->
  (applyObject obj w).1.2 = obj.
Proof.
  intros Hw Hsc.
  by rewrite (applyObject_conflict_read_failed _ _ _ _ _ _ Hw Hsc).
Qed.

(** C3 (amended). When the create request is answered with 409 and the
    read with 200 and a body from which [metadata.resourceVersion] can be
    read, exactly three requests are issued, in this order: the POST of
    the object, the GET of the named object and the PUT to the same
    path.  The PUT carries the serialization of the object whose
    [metadata.resourceVersion] is the one read, and [applyObject] ends
    the way the PUT ends. *)
Theorem applyObject_conflict_update obj w d1 d2 rv rs :
  replies w = Response 409 (Some d1) :: Response 200 (Some d2) :: rs ->
  fetched_resourceVersion d2 = Some rv ->
  let obj' := set_resourceVersion rv obj in
  let s1 := body_sent "POST" (getPluralPath obj) (ser obj) in
  let s2 := plain_sent "GET" (object_path obj) in
  let s3 := body_sent "PUT" (object_path obj) (ser obj') in
  resourceVersion (metadata obj') = Some rv
  ∧ applyObject obj w
    = (let '(r, w') := deliver s3 (World (issued w ++ [s1; s2]) rs) in
       (r, obj', w')).
Proof.
  intros Hw Hrv obj' s1 s2 s3. split; [done|].
  rewrite (applyObject_conflict_read _ _ _ _ _ _ Hw).
  unfold on_get. cbn [statusCode data]. change (Z.eqb 200 200) with true.
  cbn [negb]. rewrite Hrv, put_any. by destruct (deliver _ _).
Qed.

(** C8. For an object with a [metadata.name], [delObject] issues exactly
    one request, a DELETE without body to the plural path followed by
    the name, and ends the way that request ends; a reply with any
    status, 404 included, fulfils it with [{statusCode, data}].  The
    object is not written. *)
Theorem delObject_single_delete obj n w :
  name (metadata obj) = Some n ->
  let s := plain_sent "DELETE" (getPluralPath obj +:+ "/" +:+ n) in
  sent_method s = Some (VStr "DELETE")
  ∧ sent_path s = Some (VStr (getPluralPath obj +:+ "/" +:+ n))
  ∧ delObject token host obj w
    = (let '(r, w') := deliver s w in (r, obj, w'))
  ∧ ∀ sc d rs, replies w = Response sc (Some d) :: rs ->
      delObject token host obj w
      = (Fulfilled (Result sc d), obj, World (issued w ++ [s]) rs).
Proof.
  intros Hn s.
  assert (Heq : delObject token host obj w
                = (let '(r, w') := deliver s w in (r, obj, w'))).
  { unfold delObject. rewrite Hn. simpl. rewrite del_any.
    by destruct (deliver _ w). }
  split; [done|]. split; [done|]. split; [done|].
  intros sc d rs Hw. rewrite Heq.
  by rewrite (deliver_cons _ _ _ _ Hw).
Qed.

End Reconciler.

(** ** The plural path *)

Lemma indexOf_lower_bound c s : -1 ≤ indexOf c s.
Proof.
  induction s as [|a s IH]; simpl; [lia|].
  destruct (Ascii.eqb a c); [lia|].
  destruct (Z.ltb_spec (indexOf c s) 0); lia.
Qed.

Lemma indexOf_found c s : Z.leb 0 (indexOf c s) = includes c s.
Proof.
  induction s as [|a s IH]; simpl; [done|].
  destruct (Ascii.eqb a c); simpl; [done|].
  rewrite <- IH.
  destruct (Z.ltb_spec (indexOf c s) 0), (Z.leb_spec 0 (indexOf c s));
    try lia; try done; try (apply Z.leb_le; lia).
Qed.

(** [indexOf( "/" ) > 0] asks for a slash that is not the first character. *)
Lemma indexOf_positive c s :
  Z.ltb 0 (indexOf c s) = includes c s && negb (startsWith c s).
Proof.
  destruct s as [|a s]; simpl; [done|].
  destruct (Ascii.eqb a c); simpl; [done|].
  rewrite andb_true_r, <- indexOf_found.
  pose proof (indexOf_lower_bound c s).
  destruct (Z.ltb_spec (indexOf c s) 0), (Z.leb_spec 0 (indexOf c s));
    try lia; try done; try (apply Z.ltb_lt; lia).
Qed.

(** C2 (amended). The plural path is
    [/apis/<apiVersion>/namespaces/<namespace>/<lowercased kind>s] when
    [apiVersion] contains a slash and does not start with one, and the
    same string with the root [/api/] otherwise (no slash at all, or a
    leading slash); the last segment is always the lowercased kind
    followed by one [s]. *)
Theorem getPluralPath_root (object : resource) :
  getPluralPath object
  = (if includes "/" (apiVersion object)
        && negb (startsWith "/" (apiVersion object))
     then "/apis/" else "/api/")
    +:+ apiVersion object
    +:+ "/namespaces/" +:+ namespace (metadata object)
    +:+ "/" +:+ toLowerCase (kind object) +:+ "s".
Proof.
  unfold getPluralPath. rewrite indexOf_positive.
  by destruct (includes "/" (apiVersion object)
               && negb (startsWith "/" (apiVersion object))).
Qed.

(** C2, as the specification words it, fails on an [apiVersion] that
    starts with its only slash: the root is [/api/]. *)
Lemma getPluralPath_leading_slash :
  let object := Resource "/v1" "Service" (Meta "ns1" (Some "svc-a") None ∅) ∅ in
  includes "/" (apiVersion object) = true
  ∧ getPluralPath object = "/api//v1/namespaces/ns1/services"
  ∧ getPluralPath object ≠ spec_pluralPath object.
Proof. repeat split. vm_compute. discriminate. Qed.

(** The scenarios of the documentation. *)
Example getPluralPath_service :
  getPluralPath (Resource "v1" "Service" (Meta "ns1" (Some "svc-a") None ∅) ∅)
  = "/api/v1/namespaces/ns1/services".
Proof. reflexivity. Qed.

Example getPluralPath_proxy :
  getPluralPath (Resource "config.openshift.io/v1" "Proxy" (Meta "ns1" None None ∅) ∅)
  = "/apis/config.openshift.io/v1/namespaces/ns1/proxys".
Proof. reflexivity. Qed.

(** ** Writes to the caller's object *)

Section Frame.

Variable token : string.
Variable host : value.
Variable ser : resource -> string.

Abbreviation applyObject := (applyObject token host ser).
Abbreviation delObject := (delObject token host).
Abbreviation body_sent := (body_sent token host).

Lemma same_but_resourceVersion_refl o : same_but_resourceVersion o o.
Proof. by repeat split. Qed.

Lemma same_but_resourceVersion_set rv o :
  same_but_resourceVersion o (set_resourceVersion rv o).
Proof. by repeat split. Qed.

Lemma same_but_resourceVersion_trans o1 o2 o3 :
  same_but_resourceVersion o1 o2 -> same_but_resourceVersion o2 o3 ->
  same_but_resourceVersion o1 o3.
Proof.
  unfold same_but_resourceVersion.
  intros (?&?&?&?&?&?) (?&?&?&?&?&?). repeat split; congruence.
Qed.

Lemma delObject_keeps_object obj w : (delObject obj w).1.2 = obj.
Proof.
  unfold delObject. rewrite del_any.
  by destruct (deliver _ w).
Qed.

(** [applyObject] leaves the object alone, or it has written the fetched
    [resourceVersion] and the last request it issued is the PUT of the
    object so updated. *)
Lemma applyObject_writes obj w :
  (applyObject obj w).1.2 = obj
  ∨ ∃ rv,
      (applyObject obj w).1.2 = set_resourceVersion rv obj
      ∧ list.last (issued (applyObject obj w).2)
        = Some (body_sent "PUT" (object_path obj)
                  (ser (set_resourceVersion rv obj))).
Proof.
  destruct (applyObject obj w) as [[r o'] w'] eqn:E. cbn [fst snd].
  revert E. unfold applyObject. rewrite post_fresh. unfold deliver.
  destruct (replies w) as [|[msg|sc [d|]] rs];
    try (intros [= <- <- <-]; by left).
  unfold on_reply, on_post. cbn [statusCode].
  destruct (Z.eqb sc 409); cbn [negb]; [|intros [= <- <- <-]; by left].
  rewrite get_fresh. unfold deliver. cbn [replies issued].
  destruct rs as [|[msg|sc2 [d2|]] rs];
    try (intros [= <- <- <-]; by left).
  unfold on_reply, on_get. cbn [statusCode data].
  destruct (Z.eqb sc2 200); cbn [negb]; [|intros [= <- <- <-]; by left].
  destruct (fetched_resourceVersion d2) as [rv|];
    [|intros [= <- <- <-]; by left].
  rewrite put_any. fold (object_path obj).
  unfold deliver. cbn [replies issued].
  destruct rs as [|r' rs]; intros [= <- <- <-]; right; exists rv;
    cbn [issued]; by rewrite last_snoc.
Qed.

(** C9. Whatever sequence of [applyObject] and [delObject] runs on an
    object, every field other than [metadata.resourceVersion] keeps its
    value; [delObject] writes nothing; and when [applyObject] has written
    [metadata.resourceVersion], the request issued right after the write,
    the last of the call, is the PUT that carries the object so updated. *)
Theorem only_resourceVersion_is_written :
  (∀ ops obj w,
     same_but_resourceVersion obj (run_ops token host ser ops obj w).1)
  ∧ (∀ obj w, (delObject obj w).1.2 = obj)
  ∧ (∀ obj w,
       (applyObject obj w).1.2 = obj
       ∨ ∃ rv,
           (applyObject obj w).1.2 = set_resourceVersion rv obj
           ∧ list.last (issued (applyObject obj w).2)
             = Some (body_sent "PUT" (object_path obj)
                       (ser (set_resourceVersion rv obj)))).
Proof.
  split; [|split; [apply delObject_keeps_object | apply applyObject_writes]].
  induction ops as [|o ops IH]; intros obj w; simpl.
  - apply same_but_resourceVersion_refl.
  - assert (Hstep : same_but_resourceVersion obj
                      (run_op token host ser o obj w).1.2).
    { destruct o; simpl.
      - destruct (applyObject_writes obj w) as [->|(rv & -> & _)];
          [apply same_but_resourceVersion_refl
          |apply same_but_resourceVersion_set].
      - rewrite delObject_keeps_object. apply same_but_resourceVersion_refl. }
    destruct (run_op token host ser o obj w) as [[r obj'] w'].
    simpl in Hstep.
    destruct r; simpl; try done;
      eapply same_but_resourceVersion_trans; eauto.
Qed.

End Frame.

(** ** The transport and the caller's options *)

Lemma lookup_defaults (t : gmap string value) defs k :
  defaults t defs !! k
  = match t !! k with Some v => Some v | None => first_binding k defs end.
Proof.
  revert t. induction defs as [|kv defs IH]; intros t; simpl.
  - by destruct (t !! k).
  - rewrite IH. unfold default_key.
    destruct (decide (kv.1 = k)) as [->|Hne].
    + destruct (t !! k) eqn:E; [by rewrite E|]. by rewrite lookup_insert_eq.
    + destruct (t !! kv.1) eqn:E; [done|]. by rewrite lookup_insert_ne.
Qed.

Lemma defaults_app (t : gmap string value) defs1 defs2 :
  defaults (defaults t defs1) defs2 = defaults t (defs1 ++ defs2).
Proof. unfold defaults. by rewrite foldl_app. Qed.

Section Transport.

Variable token : string.
Variable host : value.
Variable ser : resource -> string.

Lemma request_fresh path w :
  request token host path None w =
  let '(r, w') := deliver (plain_sent token host "GET" path) w in
  (r, None, w').
Proof.
  unfold request, plain_sent.
  vm_compute (defaults_value _ _). cbv iota beta zeta.
  rewrite https_request_plain by (vm_compute; reflexivity).
  vm_compute (insert _ _ _). vm_compute (plain_options _ _ _ _).
  by destruct (deliver _ w).
Qed.

(** C6. When the body of a response cannot be parsed, [JSON.parse] throws
    inside the ["end"] listener: the promise of [request] is neither
    fulfilled nor rejected, the [SyntaxError] is an uncaught exception.
    An [applyObject] whose create request is answered so stays pending as
    well, after that one request. *)
Theorem malformed_body_is_not_rejected path obj w sc rs :
  replies w = Response sc None :: rs ->
  (request token host path None w).1.1 = Uncaught SyntaxError
  ∧ (∀ e, (request token host path None w).1.1 ≠ Rejected e)
  ∧ applyObject token host ser obj w
    = (Uncaught SyntaxError, obj,
       World (issued w ++ [body_sent token host "POST" (getPluralPath obj)
                             (ser obj)]) rs).
Proof.
  intros Hw. rewrite request_fresh.
  rewrite (deliver_cons _ _ _ _ Hw). cbn [fst snd on_reply].
  split; [done|]. split; [done|].
  unfold applyObject. rewrite post_fresh.
  by rewrite (deliver_cons _ _ _ _ Hw).
Qed.

(** C7 (amended). Called without options, [put] hands to [https.request]
    the request that [post] hands to it, under the method PUT instead of
    POST: the body is the serialized object, with [Content-Type:
    application/json] and the byte length of the body as
    [Content-Length]. *)
Theorem put_is_post_with_method_PUT path obj w :
  let s := body_sent token host "POST" path (ser obj) in
  let s' := body_sent token host "PUT" path (ser obj) in
  post token host ser path obj None w
  = (let '(r, w') := deliver s w in (r, None, w'))
  ∧ put token host ser path obj None w
    = (let '(r, w') := deliver s' w in (r, None, w'))
  ∧ s' = set_method "PUT" s
  ∧ sent_method s = Some (VStr "POST")
  ∧ sent_method s' = Some (VStr "PUT")
  ∧ sent_postData s' = Some (VStr (ser obj))
  ∧ ∃ h : gmap string value,
      sent_headers s' = Some (VObj h)
      ∧ h !! "Content-Type" = Some (VStr "application/json")
      ∧ h !! "Content-Length" = Some (VNum (Z.of_nat (String.length (ser obj)))).
Proof.
  intros s s'.
  split; [apply post_fresh|]. split; [apply put_any|].
  split; [unfold s, s', set_method, body_sent; f_equal; by vm_compute|].
  repeat (split; [done|]).
  eexists. split; [vm_compute; reflexivity|]. by split.
Qed.

Lemma request_view path (o : gmap string value) w (h : gmap string value) :
  defaults o (request_defaults host path) !! "headers" = Some (VObj h) ->
  (request token host path (Some o) w).1.2
  = Some (<["headers" := VObj (defaults h (header_defaults token))]>
            (defaults o (request_defaults host path))).
Proof.
  intros Hh. unfold request. change (default ∅ (Some o)) with o. cbv zeta.
  rewrite Hh.
  change (default VUndef (Some (VObj h))) with (VObj h).
  unfold defaults_value, header_defaults. cbv iota beta.
  by destruct (https_request _ w).
Qed.

Lemma options_after_defaults defs (o h : gmap string value) :
  defaults o defs !! "headers" = Some (VObj h) ->
  options_after token defs o
    (Some (<["headers" := VObj (defaults h (header_defaults token))]>
             (defaults o defs))).
Proof.
  intros Hh. eexists. split; [done|]. split; [|split].
  - intros k Hk. by rewrite lookup_insert_ne, lookup_defaults.
  - exists h, (defaults h (header_defaults token)).
    rewrite <- lookup_defaults. split; [done|].
    split; [by rewrite lookup_insert_eq|]. split.
    + rewrite lookup_defaults. simpl. by destruct (h !! "Authorization").
    + intros k Hk. rewrite lookup_defaults. simpl.
      destruct (h !! k); [done|]. by rewrite decide_False.
  - split.
    + intros Heq. split.
      * intros k [d Hd]. destruct (decide (k = "headers")) as [->|Hk].
        { rewrite <- Heq at 1. by rewrite lookup_insert_eq. }
        assert (Hl := f_equal (λ m : gmap string value, m !! k) Heq).
        cbn beta in Hl. rewrite lookup_insert_ne, lookup_defaults in Hl by done.
        destruct (o !! k) eqn:E; [done|]. congruence.
      * exists (defaults h (header_defaults token)). split.
        { rewrite <- Heq at 1. by rewrite lookup_insert_eq. }
        rewrite lookup_defaults. simpl. by destruct (h !! "Authorization").
    + intros [Hall (h0 & Hh0 & [a Ha])].
      assert (Ho : defaults o defs = o).
      { apply map_eq. intros k. rewrite lookup_defaults.
        destruct (o !! k) eqn:E; [done|].
        destruct (first_binding k defs) eqn:F; [|done].
        destruct (Hall k) as [x Hx]; [by eexists|]. congruence. }
      rewrite Ho in Hh |- *. assert (h = h0) as -> by congruence.
      assert (defaults h0 (header_defaults token) = h0) as ->.
      { unfold defaults, header_defaults, default_key. simpl. by rewrite Ha. }
      by apply insert_id.
Qed.

Lemma wrapper_options_after defs path (o : gmap string value) w :
  (∀ v, o !! "headers" = Some v -> ∃ h : gmap string value, v = VObj h) ->
  (∀ v, first_binding "headers" defs = Some v ->
        ∃ h : gmap string value, v = VObj h) ->
  options_after token (defs ++ request_defaults host path) o
    (request token host path (Some (defaults o defs)) w).1.2.
Proof.
  intros Ho Hd.
  assert (∃ h : gmap string value,
            defaults o (defs ++ request_defaults host path) !! "headers"
            = Some (VObj h)) as [h Hh].
  { rewrite lookup_defaults. destruct (o !! "headers") as [v|] eqn:E.
    - destruct (Ho v) as [h ->]; eauto.
    - clear -Hd. induction defs as [|kv defs' IH]; simpl.
      + repeat case_decide; try done; eauto.
      + simpl in Hd. destruct (decide (kv.1 = "headers")).
        * destruct (Hd kv.2) as [h ->]; eauto.
        * by apply IH. }
  rewrite <- defaults_app in Hh. rewrite (request_view _ _ _ h Hh).
  rewrite defaults_app in Hh |- *. by apply options_after_defaults.
Qed.

Lemma request_view_some path (o : gmap string value) w :
  ∃ o', (request token host path (Some o) w).1.2 = Some o'.
Proof.
  unfold request.
  destruct (defaults_value _ _); [destruct (https_request _ w)|]; by eexists.
Qed.

(** C10 (amended). [request], [get] and [post] write to the options object
    the caller supplies (its headers, when it has any, being an object):
    every key of their [defaults] literals that it lacks receives the
    default, the keys it has keep their values, and [Authorization] is
    added to its headers object when absent.  The object is changed by the
    call if and only if it lacked one of the keys or the [Authorization]
    header. *)
Theorem options_mutated_in_place path obj (o : gmap string value) w :
  (∀ v, o !! "headers" = Some v -> ∃ h : gmap string value, v = VObj h) ->
  options_after token (request_defaults host path) o
    (request token host path (Some o) w).1.2
  ∧ options_after token ([("method", VStr "GET")] ++ request_defaults host path) o
      (get token host path (Some o) w).1.2
  ∧ options_after token (post_defaults (ser obj) ++ request_defaults host path) o
      (post token host ser path obj (Some o) w).1.2.
Proof.
  intros Ho. split; [|split].
  - apply (wrapper_options_after [] path o w Ho). by intros v [=].
  - pose proof (wrapper_options_after [("method", VStr "GET")] path o w Ho) as H.
    unfold get. cbn [default].
    destruct (request_view_some path (defaults o [("method", VStr "GET")]) w)
      as [o' Ho'].
    destruct (request _ _ _ _ w) as [[r x] w']. cbn [fst snd] in *. subst x.
    apply H. intros v. simpl. by repeat case_decide.
  - pose proof (wrapper_options_after (post_defaults (ser obj)) path o w Ho) as H.
    unfold post. cbn [default].
    destruct (request_view_some path (defaults o (post_defaults (ser obj))) w)
      as [o' Ho'].
    destruct (request _ _ _ _ w) as [[r x] w']. cbn [fst snd] in *. subst x.
    apply H. intros v. simpl. repeat case_decide; try done.
    intros [= <-]. eauto.
Qed.

End Transport.

(** ** The statements on the sample cluster *)

(** The service does not exist yet: one POST, answered 201. *)
Lemma applyObject_no_conflict_witness :
  applyObject sample_token sample_host sample_stringify sample_service
    (World [] [Response 201 (Some sample_fetched)])
  = (Fulfilled (Result 201 sample_fetched), sample_service,
     World ([] ++ [body_sent sample_token sample_host "POST"
                     "/api/v1/namespaces/ns1/services"
                     (sample_stringify sample_service)]) []).
Proof.
  apply (applyObject_no_conflict sample_token sample_host sample_stringify
           sample_service (World [] [Response 201 (Some sample_fetched)])
           201 sample_fetched []).
  - reflexivity.
  - discriminate.
Defined.

(** The service exists and the read is forbidden: the promise is rejected. *)
Lemma applyObject_read_failure_is_thrown_witness :
  let w := World [] [Response 409 (Some sample_status);
                     Response 403 (Some sample_status)] in
  (applyObject sample_token sample_host sample_stringify sample_service w).1.1
  = Rejected (CannotGetObject 403 sample_status)
  ∧ (applyObject sample_token sample_host sample_stringify sample_service w).1.1
    ≠ Fulfilled (Result 403 sample_status).
Proof.
  intros w.
  destruct (applyObject_read_failure_is_thrown sample_token sample_host
              sample_stringify sample_service w sample_status 403
              sample_status []) as (H1 & H2 & _).
  - reflexivity.
  - discriminate.
  - split; [exact H1 | exact H2].
Defined.

Lemma applyObject_read_failure_keeps_object_witness :
  (applyObject sample_token sample_host sample_stringify sample_service
     (World [] [Response 409 (Some sample_status);
                Response 404 (Some sample_status)])).1.2
  = sample_service.
Proof.
  apply (applyObject_read_failure_keeps_object sample_token sample_host
           sample_stringify sample_service _ sample_status 404
           sample_status []).
  - reflexivity.
  - discriminate.
Defined.

(** The scenario of the documentation: 409 on create, resourceVersion 42
    on read, 200 on put. *)
Lemma applyObject_conflict_update_witness :
  let w := World [] [Response 409 (Some sample_status);
                     Response 200 (Some sample_fetched);
                     Response 200 (Some sample_fetched)] in
  let r := applyObject sample_token sample_host sample_stringify
             sample_service w in
  r.1.1 = Fulfilled (Result 200 sample_fetched)
  ∧ resourceVersion (metadata r.1.2) = Some (VStr "42")
  ∧ (λ s, (sent_method s, sent_path s)) <$> issued r.2
    = [ (Some (VStr "POST"), Some (VStr "/api/v1/namespaces/ns1/services"));
        (Some (VStr "GET"), Some (VStr "/api/v1/namespaces/ns1/services/svc-a"));
        (Some (VStr "PUT"), Some (VStr "/api/v1/namespaces/ns1/services/svc-a")) ]
  ∧ sent_body <$> list.last (issued r.2)
    = Some (Some (sample_stringify
                    (set_resourceVersion (VStr "42") sample_service))).
Proof.
  intros w r.
  destruct (applyObject_conflict_update sample_token sample_host
              sample_stringify sample_service w sample_status sample_fetched
              (VStr "42") [Response 200 (Some sample_fetched)])
    as [H1 H2].
  - reflexivity.
  - reflexivity.
  - unfold r. rewrite H2. repeat split.
Defined.

Lemma delObject_single_delete_witness :
  delObject sample_token sample_host sample_service
    (World [] [Response 404 (Some sample_status)])
  = (Fulfilled (Result 404 sample_status), sample_service,
     World ([] ++ [plain_sent sample_token sample_host "DELETE"
                     ("/api/v1/namespaces/ns1/services" +:+ "/" +:+ "svc-a")])
           []).
Proof.
  destruct (delObject_single_delete sample_token sample_host sample_service
              "svc-a" (World [] [Response 404 (Some sample_status)]))
    as (_ & _ & _ & H).
  - reflexivity.
  - apply (H 404 sample_status []). reflexivity.
Defined.

(** A reply that is no JSON: the promise of [request] is not rejected. *)
Lemma malformed_body_is_not_rejected_witness :
  (request sample_token sample_host "/version" None
     (World [] [Response 200 None])).1.1 = Uncaught SyntaxError
  ∧ (applyObject sample_token sample_host sample_stringify sample_service
       (World [] [Response 200 None])).1.1 = Uncaught SyntaxError.
Proof.
  destruct (malformed_body_is_not_rejected sample_token sample_host
              sample_stringify "/version" sample_service
              (World [] [Response 200 None]) 200 []) as (H1 & _ & H2).
  - reflexivity.
  - split; [exact H1 | by rewrite H2].
Defined.

(** Empty options are filled in by [request]. *)
Lemma options_mutated_in_place_witness :
  options_after sample_token (request_defaults sample_host "/version") ∅
    (request sample_token sample_host "/version" (Some ∅) (World [] [])).1.2.
Proof.
  destruct (options_mutated_in_place sample_token sample_host sample_stringify
              "/version" sample_service ∅ (World [] [])) as (H & _ & _).
  - intros v Hv. rewrite lookup_empty in Hv. discriminate.
  - exact H.
Defined.

(** C3, as the specification words it, fails when the read is answered
    with 200 and a body without [metadata]: reading [resourceVersion]
    throws a [TypeError] and no PUT is issued. *)
Lemma applyObject_read_without_metadata :
  let w := World [] [Response 409 (Some sample_status);
                     Response 200 (Some (VObj ∅));
                     Response 200 (Some sample_fetched)] in
  let r := applyObject sample_token sample_host sample_stringify
             sample_service w in
  r.1.1 = Rejected TypeError
  ∧ sent_method <$> issued r.2 = [Some (VStr "POST"); Some (VStr "GET")].
Proof.
  intros w r. unfold r.
  rewrite (applyObject_conflict_read sample_token sample_host sample_stringify
             sample_service w sample_status 200 (VObj ∅)
             [Response 200 (Some sample_fetched)] eq_refl).
  by split.
Qed.

(** C7, as the specification words it, fails on options that carry
    headers: [post] keeps the caller's headers and adds no [Content-Type],
    [put] drops the caller's options. *)
Lemma put_differs_from_post_on_options :
  let opts := Some {[ "headers" := VObj {[ "X-Trace" := VStr "1" ]} ]} in
  let w := World [] [] in
  let by_put := issued (put sample_token sample_host sample_stringify
                          "/p" sample_service opts w).2 in
  let by_post := issued (post sample_token sample_host sample_stringify
                           "/p" sample_service opts w).2 in
  by_put ≠ set_method "PUT" <$> by_post
  ∧ (λ s, prop (default VUndef (sent_headers s)) "Content-Type") <$> by_put
    = [Some (VStr "application/json")]
  ∧ (λ s, prop (default VUndef (sent_headers s)) "Content-Type") <$> by_post
    = [Some VUndef].
Proof.
  intros opts w by_put by_post.
  assert (H1 : (λ s, prop (default VUndef (sent_headers s)) "Content-Type")
               <$> by_put = [Some (VStr "application/json")])
    by (vm_compute; reflexivity).
  assert (H2 : (λ s, prop (default VUndef (sent_headers s)) "Content-Type")
               <$> by_post = [Some VUndef])
    by (vm_compute; reflexivity).
  split; [|by split].
  intros Heq. rewrite Heq in H1.
  vm_compute in H1. discriminate H1.
Qed.

(** C10, as it is worded, fails on options that have every key: [request],
    [get] and [post] leave them as they are. *)
Lemma complete_options_are_not_changed :
  let w := World [] [] in
  (request sample_token sample_host "/p" (Some sample_complete_options) w).1.2
  = Some sample_complete_options
  ∧ (get sample_token sample_host "/p" (Some sample_complete_options) w).1.2
    = Some sample_complete_options
  ∧ (post sample_token sample_host sample_stringify "/p" sample_service
       (Some sample_complete_options) w).1.2
    = Some sample_complete_options.
Proof. repeat split; vm_compute; reflexivity. Qed.

(** ** More on [defaults] *)



(** X2. [defaults] only adds: the target is contained in the result, and
    a second call with the same literal changes nothing. *)
Theorem defaults_only_adds (target : gmap string value) defs :
  target ⊆ defaults target defs
  ∧ defaults (defaults target defs) defs = defaults target defs.
Proof.
  split.
  - apply map_subseteq_spec. intros k v Hk.
    by rewrite lookup_defaults, Hk.
  - apply map_eq. intros k. rewrite !lookup_defaults.
    by destruct (target !! k), (first_binding k defs).
Qed.

(** X3. Every [new K8sApi()] wraps [tls.createSecureContext] once more:
    after [n] constructions a secure context is created from the same
    options by the original function and then receives the certificate
    [n] times. *)
Theorem constructor_stacks certificate orig n options :
  created_from (Nat.iter n (constructor certificate) orig options)
  = created_from (orig options)
  ∧ added_cas (Nat.iter n (constructor certificate) orig options)
    = added_cas (orig options) ++ replicate n certificate.
Proof.
  induction n as [|n [IH1 IH2]]; simpl.
  - by rewrite app_nil_r.
  - split; [done|]. rewrite IH2, <- app_assoc. f_equal.
    change (replicate n certificate ++ [certificate]
            = replicate (S n) certificate).
    by rewrite replicate_S_end.
Qed.

(** ** More on the transport *)

Section MoreTransport.

Variable token : string.
Variable host : value.
Variable ser : resource -> string.

Lemma request_eq path (o h : gmap string value) w :
  defaults o (request_defaults host path) !! "headers" = Some (VObj h) ->
  request token host path (Some o) w
  = (let o' := <["headers" := VObj (defaults h (header_defaults token))]>
                 (defaults o (request_defaults host path)) in
     let '(r, w') := https_request o' w in (r, Some o', w')).
Proof.
  intros Hh. unfold request. change (default ∅ (Some o)) with o. cbv zeta.
  rewrite Hh. change (default VUndef (Some (VObj h))) with (VObj h).
  unfold defaults_value, header_defaults. cbv iota beta.
  by destruct (https_request _ w).
Qed.

Lemma request_headers_object path (o : gmap string value) :
  (∀ v, o !! "headers" = Some v -> ∃ h : gmap string value, v = VObj h) ->
  ∃ h : gmap string value,
    defaults o (request_defaults host path) !! "headers" = Some (VObj h)
    ∧ (o !! "headers" = None -> h = ∅)
    ∧ (∀ h0, o !! "headers" = Some (VObj h0) -> h = h0).
Proof.
  intros Ho. rewrite lookup_defaults.
  destruct (o !! "headers") as [v|] eqn:E.
  - destruct (Ho v eq_refl) as [h ->]. exists h.
    split; [done|]. split; [done|]. by intros h0 [= <-].
  - exists ∅. simpl. repeat case_decide; try done.
Qed.

(** X4. [get] is [request]: whatever the options, the two calls issue the
    same request, end the same way and leave the caller's options object
    in the same state. *)
Theorem get_is_request path (options : option (gmap string value)) w :
  get token host path options w = request token host path options w.
Proof.
  unfold get.
  assert (Heq : defaults (defaults (default ∅ options) [("method", VStr "GET")])
                  (request_defaults host path)
                = defaults (default ∅ options) (request_defaults host path)).
  { apply map_eq. intros k. rewrite !lookup_defaults.
    destruct (default ∅ options !! k); [done|].
    simpl. repeat case_decide; by simplify_eq. }
  unfold request.
  change (default ∅ (Some ?x)) with x. cbv zeta. rewrite Heq.
  destruct (defaults_value _ _); [destruct (https_request _ w)|];
    by destruct options.
Qed.

(** X5. When the caller's options hold under [headers] something that is
    not an object, [request] is rejected with a [TypeError] and no request
    is issued; the caller's object has by then received the other
    defaults. *)
Theorem request_rejects_bad_headers path (o : gmap string value) v w :
  o !! "headers" = Some v ->
  match v with VObj _ | VArr _ _ => False | _ => True end ->
  request token host path (Some o) w
  = (Rejected TypeError, Some (defaults o (request_defaults host path)), w)
  ∧ ∀ k d, k ≠ "headers" -> o !! k = None ->
      first_binding k (request_defaults host path) = Some d ->
      defaults o (request_defaults host path) !! k = Some d.
Proof.
  intros Hv Hbad. split.
  - unfold request. change (default ∅ (Some o)) with o. cbv zeta.
    rewrite lookup_defaults, Hv.
    by destruct v.
  - intros k d _ Hk Hd. by rewrite lookup_defaults, Hk.
Qed.

(** X6. [request] hands the caller's own options object to
    [https.request]: the one request it issues carries the object the
    caller gets back, in which every key the caller had set outside of
    [headers] has the caller's value; so a [path] in the options replaces
    the [path] argument.  The body written is the caller's [postData] when
    that is a non-empty string. *)
Theorem request_sends_callers_object path (o : gmap string value) w :
  (∀ v, o !! "headers" = Some v -> ∃ h : gmap string value, v = VObj h) ->
  (∀ v, o !! "postData" = Some v -> (∃ b, v = VStr b) ∨ truthy v = false) ->
  ∃ o' : gmap string value,
    request token host path (Some o) w
    = (let '(r, w') := deliver (Sent o' (written_body o)) w in (r, Some o', w'))
    ∧ (∀ k v, k ≠ "headers" -> o !! k = Some v -> o' !! k = Some v)
    ∧ o' !! "path" = Some (default (VStr path) (o !! "path")).
Proof.
  intros Ho Hp. destruct (request_headers_object path o Ho) as (h & Hh & _).
  exists (<["headers" := VObj (defaults h (header_defaults token))]>
            (defaults o (request_defaults host path))).
  split; [|split].
  - rewrite (request_eq _ _ _ _ Hh). cbv zeta.
    set (o' := <["headers" := _]> _).
    assert (Hpd : o' !! "postData" = o !! "postData").
    { unfold o'. rewrite lookup_insert_ne, lookup_defaults by done.
      destruct (o !! "postData"); [done|]. simpl. by repeat case_decide. }
    unfold written_body. destruct (o !! "postData") as [v|] eqn:E.
    + destruct (Hp v eq_refl) as [[b ->]|Hf].
      * rewrite (https_request_body _ b) by done. by destruct (deliver _ w).
      * unfold https_request. rewrite Hpd. cbn [default]. unfold id.
        rewrite Hf. destruct v; try (by destruct (deliver _ w)).
        simpl in Hf. apply negb_false_iff in Hf. rewrite Hf.
        by destruct (deliver _ w).
    + rewrite https_request_plain by done. by destruct (deliver _ w).
  - intros k v Hk Hv. by rewrite lookup_insert_ne, lookup_defaults, Hv.
  - rewrite lookup_insert_ne, lookup_defaults by done.
    destruct (o !! "path"); [done|]. simpl. by repeat case_decide.
Qed.

(** X7. [post] with options of the caller that hold no [postData]: the
    serialized object is the body, the method is the caller's when the
    options name one and POST otherwise, and a headers object of the
    caller is sent as it is apart from [Authorization]: [Content-Type]
    and [Content-Length] are there only if the caller put them. *)
Theorem post_with_caller_options path obj (o : gmap string value) w :
  (∀ v, o !! "headers" = Some v -> ∃ h : gmap string value, v = VObj h) ->
  o !! "postData" = None ->
  ∃ o' : gmap string value,
    post token host ser path obj (Some o) w
    = (let '(r, w') :=
         deliver (Sent o' (if String.eqb (ser obj) "" then None
                           else Some (ser obj))) w in
       (r, Some o', w'))
    ∧ o' !! "postData" = Some (VStr (ser obj))
    ∧ o' !! "method" = Some (default (VStr "POST") (o !! "method"))
    ∧ ∀ h0 : gmap string value, o !! "headers" = Some (VObj h0) ->
        ∃ h' : gmap string value,
          o' !! "headers" = Some (VObj h')
          ∧ h' !! "Content-Type" = h0 !! "Content-Type"
          ∧ h' !! "Content-Length" = h0 !! "Content-Length".
Proof.
  intros Ho Hnp.
  set (o0 := defaults o (post_defaults (ser obj))).
  assert (Hok : ∀ v, o0 !! "headers" = Some v ->
                     ∃ h : gmap string value, v = VObj h).
  { intros v. unfold o0. rewrite lookup_defaults.
    destruct (o !! "headers") as [v0|] eqn:E.
    - intros [= <-]. by apply Ho.
    - simpl. repeat case_decide; try done. intros [= <-]. eauto. }
  destruct (request_headers_object path o0 Hok) as (h & Hh & _ & Hsome).
  exists (<["headers" := VObj (defaults h (header_defaults token))]>
            (defaults o0 (request_defaults host path))).
  split; [|split; [|split]].
  - unfold post. change (default ∅ (Some o)) with o. fold o0. cbv zeta.
    rewrite (request_eq _ _ _ _ Hh). cbv zeta.
    rewrite (https_request_body _ (ser obj)).
    + by destruct (deliver _ w).
    + rewrite lookup_insert_ne, lookup_defaults by done.
      unfold o0. rewrite lookup_defaults, Hnp. simpl.
      by repeat case_decide.
  - rewrite lookup_insert_ne, lookup_defaults by done.
    unfold o0. rewrite lookup_defaults, Hnp. simpl.
    by repeat case_decide.
  - rewrite lookup_insert_ne, lookup_defaults by done.
    unfold o0. rewrite lookup_defaults.
    destruct (o !! "method"); [done|]. simpl. by repeat case_decide.
  - intros h0 Hh0. exists (defaults h (header_defaults token)).
    assert (h = h0) as ->.
    { apply Hsome. unfold o0. by rewrite lookup_defaults, Hh0. }
    split; [by rewrite lookup_insert_eq|].
    rewrite !lookup_defaults. simpl.
    split; [destruct (h0 !! "Content-Type")|destruct (h0 !! "Content-Length")];
      try done; by repeat case_decide.
Qed.

(** X8. [put] and [del] do not read their [options]: whatever is passed,
    the request issued is the one built from the path (and the object)
    alone, and the options object is left as it is. *)
Theorem put_and_del_ignore_options path obj
  (options : option (gmap string value)) w :
  put token host ser path obj options w
  = (let '(r, _, w') := put token host ser path obj None w in (r, options, w'))
  ∧ del token host path options w
    = (let '(r, _, w') := del token host path None w in (r, options, w'))
  ∧ issued (put token host ser path obj options w).2
    = issued w ++ [body_sent token host "PUT" path (ser obj)]
  ∧ issued (del token host path options w).2
    = issued w ++ [plain_sent token host "DELETE" path].
Proof.
  rewrite !put_any, !del_any.
  repeat split; unfold deliver; by destruct (replies w).
Qed.

End MoreTransport.

(** ** More on the apply protocol *)

Section MoreReconciler.

Variable token : string.
Variable host : value.
Variable ser : resource -> string.

Abbreviation applyObject := (applyObject token host ser).
Abbreviation delObject := (delObject token host).
Abbreviation body_sent := (body_sent token host).
Abbreviation plain_sent := (plain_sent token host).

Lemma getPluralPath_set_resourceVersion rv obj :
  getPluralPath (set_resourceVersion rv obj) = getPluralPath obj.
Proof. reflexivity. Qed.

Lemma object_path_set_resourceVersion rv obj :
  object_path (set_resourceVersion rv obj) = object_path obj.
Proof. reflexivity. Qed.

(** The requests of one [applyObject] and the replies it uses up. *)
Lemma applyObject_trace obj w :
  let s1 := body_sent "POST" (getPluralPath obj) (ser obj) in
  let s2 := plain_sent "GET" (object_path obj) in
  let w' := (applyObject obj w).2 in
  (issued w' = issued w ++ [s1] ∧ replies w' = drop 1 (replies w))
  ∨ (issued w' = issued w ++ [s1; s2] ∧ replies w' = drop 2 (replies w))
  ∨ (∃ rv, issued w'
           = issued w ++ [s1; s2;
                          body_sent "PUT" (object_path obj)
                            (ser (set_resourceVersion rv obj))]
           ∧ replies w' = drop 3 (replies w)).
Proof.
  intros s1 s2 w'. unfold w'. clear w'.
  destruct (applyObject obj w) as [[r o'] w'] eqn:E. cbn [snd].
  revert E. unfold applyObject. rewrite post_fresh. unfold deliver.
  fold s1.
  destruct (replies w) as [|[msg|sc [d|]] rs];
    try (intros [= <- <- <-]; left; by split).
  unfold on_reply, on_post. cbn [statusCode].
  destruct (Z.eqb sc 409); cbn [negb];
    [|intros [= <- <- <-]; left; by split].
  fold (object_path obj). rewrite get_fresh. unfold deliver.
  fold s2. cbn [replies issued]. rewrite <- app_assoc. cbn [app].
  destruct rs as [|[msg|sc2 [d2|]] rs];
    try (intros [= <- <- <-]; right; left; by split).
  unfold on_reply, on_get. cbn [statusCode data].
  destruct (Z.eqb sc2 200); cbn [negb];
    [|intros [= <- <- <-]; right; left; by split].
  destruct (fetched_resourceVersion d2) as [rv|];
    [|intros [= <- <- <-]; right; left; by split].
  rewrite put_any. unfold deliver. cbn [replies issued].
  rewrite <- app_assoc. cbn [app].
  destruct rs as [|r' rs]; intros [= <- <- <-]; right; right; exists rv;
    by split.
Qed.

(** X9. One [applyObject] issues one, two or three requests, always in
    the order POST of the object, GET of the named object, PUT of the
    updated object; it issues nothing else, leaves the earlier requests
    in place, and uses up one reply per request. *)
Theorem applyObject_request_sequence obj w :
  let s1 := body_sent "POST" (getPluralPath obj) (ser obj) in
  let s2 := plain_sent "GET" (object_path obj) in
  let w' := (applyObject obj w).2 in
  ∃ new : list sent,
    issued w' = issued w ++ new
    ∧ replies w' = drop (List.length new) (replies w)
    ∧ (sent_method <$> new)
      `prefix_of` [Some (VStr "POST"); Some (VStr "GET"); Some (VStr "PUT")]
    ∧ (new = [s1] ∨ new = [s1; s2]
       ∨ ∃ rv, new = [s1; s2; body_sent "PUT" (object_path obj)
                                (ser (set_resourceVersion rv obj))]).
Proof.
  intros s1 s2 w'.
  destruct (applyObject_trace obj w) as [[E R]|[[E R]|(rv & E & R)]];
    fold s1 s2 w' in E, R.
  - exists [s1]. repeat split; [done|done| |by left].
    by exists [Some (VStr "GET"); Some (VStr "PUT")].
  - exists [s1; s2]. repeat split; [done|done| |by right; left].
    by exists [Some (VStr "PUT")].
  - eexists. repeat split; [exact E|exact R| |right; right; by exists rv].
    by exists [].
Qed.

(** X10. A create or a read that does not come back with a parsed
    response ends [applyObject] the way that request ends: rejected with
    the connection error, or pending after an unparsable body or no reply
    at all.  No further request is issued and the object is not
    written. *)
Theorem applyObject_failed_step obj r log d1 rs :
  (∀ sc d, r ≠ Response sc (Some d)) ->
  let s1 := body_sent "POST" (getPluralPath obj) (ser obj) in
  let s2 := plain_sent "GET" (object_path obj) in
  applyObject obj (World log (r :: rs)) = (on_reply r, obj, World (log ++ [s1]) rs)
  ∧ applyObject obj (World log (Response 409 (Some d1) :: r :: rs))
    = (on_reply r, obj, World (log ++ [s1; s2]) rs)
  ∧ applyObject obj (World log []) = (NoReply, obj, World (log ++ [s1]) [])
  ∧ applyObject obj (World log [Response 409 (Some d1)])
    = (NoReply, obj, World (log ++ [s1; s2]) []).
Proof.
  intros Hr s1 s2.
  assert (Hpost : ∀ rs', applyObject obj (World log (Response 409 (Some d1) :: rs'))
            = (let '(g, w') := deliver s2 (World (log ++ [s1]) rs') in
               match g with
               | Fulfilled res' =>
                 on_get token host ser (object_path obj) obj res' w'
               | other => (other, obj, w')
               end)).
  { intros rs'. unfold applyObject. rewrite post_fresh. unfold deliver at 1.
    cbn [replies issued on_reply]. unfold on_post. cbn [statusCode].
    change (Z.eqb 409 409) with true. cbn [negb].
    fold (object_path obj). rewrite get_fresh.
    by destruct (deliver _ _) as [[] ?]. }
  split; [|split; [|split]].
  - unfold applyObject. rewrite post_fresh. unfold deliver.
    cbn [replies issued]. destruct r as [msg|sc [d|]]; try done.
    by destruct (Hr sc d).
  - rewrite Hpost. unfold deliver. cbn [replies issued].
    rewrite <- app_assoc. cbn [app].
    destruct r as [msg|sc [d|]]; try done. by destruct (Hr sc d).
  - unfold applyObject. by rewrite post_fresh.
  - rewrite Hpost. unfold deliver. cbn [replies issued].
    by rewrite <- app_assoc.
Qed.

(** X11. A read answered with 200 and a body that is [null], or whose
    [metadata] is missing or [null], makes [applyObject] reject with a
    [TypeError] after the POST and the GET: no PUT is issued and the
    object is not written. *)
Theorem applyObject_unreadable_body obj log d1 d2 rs :
  d2 = VNull ∨ prop d2 "metadata" = Some VUndef
  ∨ prop d2 "metadata" = Some VNull ->
  applyObject obj (World log (Response 409 (Some d1)
                              :: Response 200 (Some d2) :: rs))
  = (Rejected TypeError, obj,
     World (log ++ [body_sent "POST" (getPluralPath obj) (ser obj);
                    plain_sent "GET" (object_path obj)]) rs).
Proof.
  intros Hd.
  rewrite (applyObject_conflict_read token host ser obj
             (World log (Response 409 (Some d1) :: Response 200 (Some d2) :: rs))
             d1 200 d2 rs eq_refl).
  cbn [issued].
  unfold on_get. cbn [statusCode data]. change (Z.eqb 200 200) with true.
  cbn [negb].
  assert (fetched_resourceVersion d2 = None) as ->; [|done].
  unfold fetched_resourceVersion.
  destruct Hd as [->|[->| ->]]; done.
Qed.

(** X12. There is no rollback: when the PUT fails on the connection, or
    its response cannot be parsed, [applyObject] fails the same way and
    the caller's object keeps the [resourceVersion] written before the
    PUT. *)
Theorem applyObject_put_failure_keeps_write obj log d1 d2 rv r rs :
  fetched_resourceVersion d2 = Some rv ->
  (∀ sc d, r ≠ Response sc (Some d)) ->
  let a := applyObject obj (World log (Response 409 (Some d1)
                                       :: Response 200 (Some d2) :: r :: rs)) in
  a.1.1 = on_reply r
  ∧ (∀ res, a.1.1 ≠ Fulfilled res)
  ∧ a.1.2 = set_resourceVersion rv obj
  ∧ resourceVersion (metadata a.1.2) = Some rv.
Proof.
  intros Hrv Hr a. unfold a.
  rewrite (applyObject_conflict_read token host ser obj
             (World log (Response 409 (Some d1) :: Response 200 (Some d2)
                         :: r :: rs))
             d1 200 d2 (r :: rs) eq_refl).
  unfold on_get. cbn [statusCode data]. change (Z.eqb 200 200) with true.
  cbn [negb]. rewrite Hrv, put_any. unfold deliver. cbn [replies fst snd].
  repeat split.
  destruct r as [msg|sc [d|]]; try done. by destruct (Hr sc d).
Qed.

End MoreReconciler.

(** ** Operations one after the other *)

Section Composition.

Variable token : string.
Variable host : value.
Variable ser : resource -> string.

Abbreviation applyObject := (applyObject token host ser).
Abbreviation delObject := (delObject token host).
Abbreviation body_sent := (body_sent token host).
Abbreviation plain_sent := (plain_sent token host).

Lemma applyObject_keeps_paths obj w :
  getPluralPath (applyObject obj w).1.2 = getPluralPath obj
  ∧ object_path (applyObject obj w).1.2 = object_path obj.
Proof.
  destruct (applyObject_writes token host ser obj w) as [->|(rv & -> & _)];
    by split.
Qed.

Lemma delObject_issued obj w :
  issued (delObject obj w).2
  = issued w ++ [plain_sent "DELETE" (object_path obj)].
Proof.
  unfold delObject, object_path. rewrite del_any.
  unfold deliver. by destruct (replies w).
Qed.

(** X13. A second [applyObject] on the object a conflict update has
    written to creates with the fetched [resourceVersion] in the body:
    its POST goes to the same plural path and carries the serialization
    of the updated object. *)
Theorem applyObject_twice obj w d1 d2 rv sc3 d3 sc4 d4 rs :
  replies w = Response 409 (Some d1) :: Response 200 (Some d2)
              :: Response sc3 (Some d3) :: Response sc4 (Some d4) :: rs ->
  fetched_resourceVersion d2 = Some rv ->
  sc4 ≠ 409 ->
  let obj' := set_resourceVersion rv obj in
  let first := applyObject obj w in
  first.1.1 = Fulfilled (Result sc3 d3)
  ∧ applyObject first.1.2 first.2
    = (Fulfilled (Result sc4 d4), obj',
       World (issued w
              ++ [body_sent "POST" (getPluralPath obj) (ser obj);
                  plain_sent "GET" (object_path obj);
                  body_sent "PUT" (object_path obj) (ser obj');
                  body_sent "POST" (getPluralPath obj) (ser obj')]) rs).
Proof.
  intros Hw Hrv Hsc obj' first.
  assert (Hfirst : first
    = (Fulfilled (Result sc3 d3), obj',
       World (issued w
              ++ [body_sent "POST" (getPluralPath obj) (ser obj);
                  plain_sent "GET" (object_path obj);
                  body_sent "PUT" (object_path obj) (ser obj')])
             (Response sc4 (Some d4) :: rs))).
  { unfold first.
    rewrite (applyObject_conflict_read token host ser obj w d1 200 d2 _ Hw).
    unfold on_get. cbn [statusCode data]. change (Z.eqb 200 200) with true.
    cbn [negb]. rewrite Hrv, put_any. unfold deliver.
    cbn [replies issued on_reply]. rewrite <- app_assoc. by cbn [app]. }
  rewrite Hfirst. cbn [fst snd]. split; [done|].
  erewrite (applyObject_created token host ser obj' _ sc4 d4 rs);
    [|reflexivity].
  unfold on_post. cbn [statusCode].
  rewrite (proj2 (Z.eqb_neq sc4 409) Hsc). cbn [negb issued].
  rewrite <- app_assoc. by cbn [app].
Qed.

(** X14. [applyObject] does not move the object: the plural path and the
    path of the named object are the same after the call, so a
    [delObject] that follows sends its DELETE to the path the apply read
    and updated. *)
Theorem delObject_after_applyObject obj w :
  let a := applyObject obj w in
  getPluralPath a.1.2 = getPluralPath obj
  ∧ object_path a.1.2 = object_path obj
  ∧ issued (delObject a.1.2 a.2).2
    = issued a.2 ++ [plain_sent "DELETE" (object_path obj)].
Proof.
  intros a. subst a. destruct (applyObject_keeps_paths obj w) as [H1 H2].
  split; [done|]. split; [done|].
  by rewrite delObject_issued, H2.
Qed.

(** X15. For an object without [metadata.name] the template literal
    renders [undefined]: [delObject] sends its DELETE, and [applyObject]
    after a 409 its GET, to the plural path followed by [/undefined]. *)
Theorem nameless_object_paths obj w log d1 :
  name (metadata obj) = None ->
  issued (delObject obj w).2
  = issued w ++ [plain_sent "DELETE" (getPluralPath obj +:+ "/undefined")]
  ∧ issued (applyObject obj (World log [Response 409 (Some d1)])).2
    = log ++ [body_sent "POST" (getPluralPath obj) (ser obj);
              plain_sent "GET" (getPluralPath obj +:+ "/undefined")].
Proof.
  intros Hn.
  assert (Hp : object_path obj = getPluralPath obj +:+ "/undefined").
  { unfold object_path. by rewrite Hn. }
  split.
  - by rewrite delObject_issued, Hp.
  - unfold applyObject. rewrite post_fresh. unfold deliver at 1.
    cbn [replies issued on_reply]. unfold on_post. cbn [statusCode].
    change (Z.eqb 409 409) with true. cbn [negb].
    fold (object_path obj). rewrite Hp, get_fresh. unfold deliver.
    cbn [replies issued snd]. rewrite <- app_assoc. by cbn [app].
Qed.

(** X16. Every request that [applyObject] and [delObject] issue goes to
    the host of the environment on port 443 and carries the header
    [Authorization: Bearer <token>]. *)
Theorem reconciler_requests_are_authenticated obj w s :
  s ∈ issued (applyObject obj w).2 ∨ s ∈ issued (delObject obj w).2 ->
  s ∈ issued w
  ∨ (sent_options s !! "hostname" = Some host
     ∧ sent_options s !! "port" = Some (VNum 443)
     ∧ ∃ h : gmap string value,
         sent_headers s = Some (VObj h)
         ∧ h !! "Authorization" = Some (VStr ("Bearer " +:+ token))).
Proof.
  assert (Hb : ∀ m p b,
    sent_options (body_sent m p b) !! "hostname" = Some host
    ∧ sent_options (body_sent m p b) !! "port" = Some (VNum 443)
    ∧ ∃ h : gmap string value,
        sent_headers (body_sent m p b) = Some (VObj h)
        ∧ h !! "Authorization" = Some (VStr ("Bearer " +:+ token))).
  { intros m p b. split; [done|]. split; [done|]. eexists. split; done. }
  assert (Hp : ∀ m p,
    sent_options (plain_sent m p) !! "hostname" = Some host
    ∧ sent_options (plain_sent m p) !! "port" = Some (VNum 443)
    ∧ ∃ h : gmap string value,
        sent_headers (plain_sent m p) = Some (VObj h)
        ∧ h !! "Authorization" = Some (VStr ("Bearer " +:+ token))).
  { intros m p. split; [done|]. split; [done|]. eexists. split; done. }
  intros [Hin|Hin].
  - destruct (applyObject_trace token host ser obj w)
      as [[E _]|[[E _]|(rv & E & _)]];
      rewrite E in Hin; apply elem_of_app in Hin as [Hin|Hin];
      try (by left); right;
      repeat (apply elem_of_cons in Hin as [->|Hin]; [done|]);
      by apply elem_of_nil in Hin.
  - rewrite delObject_issued in Hin.
    apply elem_of_app in Hin as [Hin|Hin]; [by left|].
    right. apply elem_of_cons in Hin as [->|Hin]; [done|].
    by apply elem_of_nil in Hin.
Qed.

End Composition.

(** ** The further statements on the sample cluster *)

(** [headers: null] in the caller's options. *)
Lemma request_rejects_bad_headers_witness :
  request sample_token sample_host "/version"
    (Some {[ "headers" := VNull ]}) (World [] [Response 200 (Some VNull)])
  = (Rejected TypeError,
     Some (defaults {[ "headers" := VNull ]}
             (request_defaults sample_host "/version")),
     World [] [Response 200 (Some VNull)]).
Proof.
  destruct (request_rejects_bad_headers sample_token sample_host "/version"
              {[ "headers" := VNull ]} VNull
              (World [] [Response 200 (Some VNull)])) as [H _].
  - reflexivity.
  - exact I.
  - exact H.
Defined.

(** Options that name another path and a method. *)
Lemma request_sends_callers_object_witness :
  let o : gmap string value :=
    {[ "path" := VStr "/healthz"; "method" := VStr "HEAD" ]} in
  ∃ o' : gmap string value,
    request sample_token sample_host "/version" (Some o) (World [] [])
    = (let '(r, w') := deliver (Sent o' (written_body o)) (World [] []) in
       (r, Some o', w'))
    ∧ (∀ k v, k ≠ "headers" -> o !! k = Some v -> o' !! k = Some v)
    ∧ o' !! "path" = Some (default (VStr "/version") (o !! "path")).
Proof.
  intros o.
  apply (request_sends_callers_object sample_token sample_host "/version" o
           (World [] [])).
  - intros v Hv. vm_compute in Hv. discriminate Hv.
  - intros v Hv. vm_compute in Hv. discriminate Hv.
Defined.

(** A PATCH through [post], with headers of the caller. *)
Lemma post_with_caller_options_witness :
  let o : gmap string value :=
    {[ "method" := VStr "PATCH";
       "headers" := VObj {[ "Accept" := VStr "application/json" ]} ]} in
  ∃ o' : gmap string value,
    o' !! "method" = Some (VStr "PATCH")
    ∧ o' !! "postData" = Some (VStr (sample_stringify sample_service))
    ∧ ∃ h' : gmap string value,
        o' !! "headers" = Some (VObj h') ∧ h' !! "Content-Type" = None.
Proof.
  intros o.
  destruct (post_with_caller_options sample_token sample_host sample_stringify
              "/p" sample_service o (World [] []))
    as (o' & _ & Hpd & Hm & Hh).
  - intros v Hv. vm_compute in Hv. injection Hv as <-. eexists. reflexivity.
  - reflexivity.
  - exists o'. split; [exact Hm|]. split; [exact Hpd|].
    destruct (Hh {[ "Accept" := VStr "application/json" ]} eq_refl)
      as (h' & H1 & H2 & _).
    exists h'. split; [exact H1 | exact H2].
Defined.

(** The API server refuses the connection. *)
Lemma applyObject_failed_step_witness :
  applyObject sample_token sample_host sample_stringify sample_service
    (World [] [ConnError "ECONNREFUSED"])
  = (Rejected (NetError "ECONNREFUSED"), sample_service,
     World ([] ++ [body_sent sample_token sample_host "POST"
                     (getPluralPath sample_service)
                     (sample_stringify sample_service)]) []).
Proof.
  destruct (applyObject_failed_step sample_token sample_host sample_stringify
              sample_service (ConnError "ECONNREFUSED") [] VNull [])
    as (H & _).
  - intros sc d. discriminate.
  - exact H.
Defined.

(** A read answered with 200 and [{}]. *)
Lemma applyObject_unreadable_body_witness :
  (applyObject sample_token sample_host sample_stringify sample_service
     (World [] [Response 409 (Some sample_status);
                Response 200 (Some (VObj ∅))])).1.1
  = Rejected TypeError.
Proof.
  rewrite (applyObject_unreadable_body sample_token sample_host
             sample_stringify sample_service [] sample_status (VObj ∅) []).
  - reflexivity.
  - right. left. reflexivity.
Defined.

(** The PUT is answered with a page that is no JSON. *)
Lemma applyObject_put_failure_keeps_write_witness :
  let a := applyObject sample_token sample_host sample_stringify
             sample_service
             (World [] [Response 409 (Some sample_status);
                        Response 200 (Some sample_fetched);
                        Response 502 None]) in
  a.1.1 = Uncaught SyntaxError
  ∧ resourceVersion (metadata a.1.2) = Some (VStr "42").
Proof.
  intros a.
  destruct (applyObject_put_failure_keeps_write sample_token sample_host
              sample_stringify sample_service [] sample_status sample_fetched
              (VStr "42") (Response 502 None) [])
    as (H1 & _ & _ & H2).
  - reflexivity.
  - intros sc d. discriminate.
  - split; [exact H1 | exact H2].
Defined.

(** Apply, then apply again: the second create is answered with 201. *)
Lemma applyObject_twice_witness :
  let w := World [] [Response 409 (Some sample_status);
                     Response 200 (Some sample_fetched);
                     Response 200 (Some sample_fetched);
                     Response 201 (Some sample_fetched)] in
  let first := applyObject sample_token sample_host sample_stringify
                 sample_service w in
  (applyObject sample_token sample_host sample_stringify first.1.2 first.2).1.1
  = Fulfilled (Result 201 sample_fetched)
  ∧ sent_body <$> list.last
      (issued (applyObject sample_token sample_host sample_stringify
                 first.1.2 first.2).2)
    = Some (Some (sample_stringify
                    (set_resourceVersion (VStr "42") sample_service))).
Proof.
  intros w first.
  destruct (applyObject_twice sample_token sample_host sample_stringify
              sample_service w sample_status sample_fetched (VStr "42")
              200 sample_fetched 201 sample_fetched []) as [_ H].
  - reflexivity.
  - reflexivity.
  - discriminate.
  - unfold first. rewrite H. split; reflexivity.
Defined.

(** A service without a name. *)
Lemma nameless_object_paths_witness :
  sent_path <$> issued
    (delObject sample_token sample_host
       (Resource "v1" "Service" (Meta "ns1" None None ∅) ∅) (World [] [])).2
  = [Some (VStr "/api/v1/namespaces/ns1/services/undefined")].
Proof.
  destruct (nameless_object_paths sample_token sample_host sample_stringify
              (Resource "v1" "Service" (Meta "ns1" None None ∅) ∅)
              (World [] []) [] VNull) as [H _].
  - reflexivity.
  - rewrite H. reflexivity.
Defined.

(** The DELETE of the sample service. *)
Lemma reconciler_requests_are_authenticated_witness :
  let s := plain_sent sample_token sample_host "DELETE"
             "/api/v1/namespaces/ns1/services/svc-a" in
  ∃ h : gmap string value,
    sent_headers s = Some (VObj h)
    ∧ h !! "Authorization" = Some (VStr ("Bearer " +:+ sample_token)).
Proof.
  intros s.
  destruct (reconciler_requests_are_authenticated sample_token sample_host
              sample_stringify sample_service (World [] []) s)
    as [Hin|(_ & _ & H)].
  - right. rewrite delObject_issued. apply elem_of_app. right. constructor.
  - apply elem_of_nil in Hin. destruct Hin.
  - exact H.
Defined.

(** ** Status codes are not interpreted *)

Section Statuses.

Variable token : string.
Variable host : value.
Variable ser : resource -> string.

(** X17. The transport does not look at the status code: a response with
    a parsed body fulfils [request], [get], [post], [put] and [del] with
    [{statusCode, data}] whatever the status, and a connection error
    rejects each of them with that error. *)
Theorem wrappers_return_any_status path obj r rs w :
  replies w = r :: rs ->
  (request token host path None w).1.1 = on_reply r
  ∧ (get token host path None w).1.1 = on_reply r
  ∧ (post token host ser path obj None w).1.1 = on_reply r
  ∧ (put token host ser path obj None w).1.1 = on_reply r
  ∧ (del token host path None w).1.1 = on_reply r
  ∧ (∀ sc d, r = Response sc (Some d) -> on_reply r = Fulfilled (Result sc d))
  ∧ (∀ msg, r = ConnError msg -> on_reply r = Rejected (NetError msg)).
Proof.
  intros Hw.
  rewrite request_fresh, get_fresh, post_fresh, put_any, del_any.
  rewrite !(deliver_cons _ _ _ _ Hw). cbn [fst snd].
  repeat split; by intros; subst.
Qed.

End Statuses.

(** A 500 with a [Status] body is a result like any other. *)
Lemma wrappers_return_any_status_witness :
  (get sample_token sample_host "/version" None
     (World [] [Response 500 (Some sample_status)])).1.1
  = Fulfilled (Result 500 sample_status).
Proof.
  destruct (wrappers_return_any_status sample_token sample_host
              sample_stringify "/version" sample_service
              (Response 500 (Some sample_status)) []
              (World [] [Response 500 (Some sample_status)]))
    as (_ & H & _).
  - reflexivity.
  - exact H.
Defined.
